(** * The interrogation job / form lifecycle of horde/classes/stable/interrogation.py

    A shallow embedding of the two ORM classes of the file,
    [InterrogationsForms] (one claimable sub-task) and [Interrogation]
    (the parent job), and the properties of their methods.

    Python objects are records, a method is a computation over a world
    made of the object it is called on, the wall clock and the trace of
    what it did to the session and to its collaborators.  A Python
    exception is a result of the computation, not a missing case. *)

From Stdlib Require Import ZArith List String Bool Lia.
Import ListNotations.
Open Scope string_scope.
Open Scope list_scope.
Open Scope Z_scope.

(** ** Module-level definitions *)

(** [class State(enum.Enum)] *)
Inductive State : Type :=
| WAITING
| PROCESSING
| DONE
| CANCELLED
| FAULTED.

Definition State_value (s : State) : Z :=
  match s with
  | WAITING => 0
  | PROCESSING => 1
  | DONE => 2
  | CANCELLED => 3
  | FAULTED => 4
  end.

Definition State_name (s : State) : string :=
  match s with
  | WAITING => "WAITING"
  | PROCESSING => "PROCESSING"
  | DONE => "DONE"
  | CANCELLED => "CANCELLED"
  | FAULTED => "FAULTED"
  end.

(** [State[name]]: the member with that name, if any. *)
Definition State_of_name (n : string) : option State :=
  find (fun s => String.eqb (State_name s) n)
       [WAITING; PROCESSING; DONE; CANCELLED; FAULTED].

(** Equality of enum members ([==] and [!=] on [State]). *)
Definition State_eqb (a b : State) : bool :=
  Z.eqb (State_value a) (State_value b).

(** A JSON document held in a [json_column_type] column; the code never
    looks inside one. *)
Definition json : Type := string.

(** The Python values that the methods pass around or return. *)
#[local] Unset Elimination Schemes.
Inductive pyval : Type :=
| VNone
| VBool (b : bool)
| VInt (z : Z)
| VStr (s : string)
| VJson (j : json)
| VEnum (s : State)
| VObject (what : string)
| VList (l : list pyval)
| VDict (d : list (string * pyval)).
#[local] Set Elimination Schemes.

(** A nullable JSON column read as a Python value. *)
Definition of_column (c : option json) : pyval :=
  match c with
  | None => VNone
  | Some j => VJson j
  end.

(** Truth value of an object in a condition. *)
Definition truthy (v : pyval) : bool :=
  match v with
  | VNone => false
  | VBool b => b
  | VInt z => negb (Z.eqb z 0)
  | VStr s => negb (String.eqb s "")
  | VJson _ => true
  | VEnum _ => true
  | VObject _ => true
  | VList l => match l with [] => false | _ => true end
  | VDict d => match d with [] => false | _ => true end
  end.

(** The exceptions the file can raise by itself. *)
Inductive exn : Type :=
| NameError (name : string)
| AttributeError (type_name attr : string)
| TypeError (msg : string)
| KeyError (key : string).

(** The names bound in the module's global scope: its imports, the two
    column-type helpers and the three classes. *)
Definition module_globals : list string :=
  [ "uuid"; "enum"; "datetime"; "JSONB"; "UUID"; "Enum"; "JSON"; "func"; "or_";
    "logger"; "db"; "SQLITE_MODE"; "thing_divisor"; "get_expiry_date";
    "get_interrogation_form_expiry_date"; "uuid_column_type";
    "json_column_type"; "State"; "InterrogationsForms"; "Interrogation" ].

Definition mem_string (n : string) (l : list string) : bool :=
  existsb (String.eqb n) l.

(** ** The worker a form is handed to

    [WorkerExtended] is declared elsewhere; the file reads a worker's [id]
    and [name] and calls [record_interrogation] and [log_aborted_job] on
    it.  Those calls appear in the trace below. *)
Module WorkerExtended.
Record t : Type := { id : Z; name : string }.
End WorkerExtended.

(** ** The row of a form *)

Record InterrogationsForms : Type := {
  id : option Z;            (* primary key, given by the database on insert *)
  i_id : Z;                 (* foreign key to the parent interrogation *)
  name : string;
  state : State;
  payload : option json;
  result : option json;
  worker : option WorkerExtended.t;  (* the worker [worker_id] refers to *)
  created : Z;
  initiated : option Z;     (* claim time *)
  expiry : option Z         (* claim expiry *)
}.

Definition worker_id (f : InterrogationsForms) : option Z :=
  option_map WorkerExtended.id (worker f).

(** An assignment to one attribute of a form. *)
Inductive Write : Type :=
| W_state (s : State)
| W_result (r : option json)
| W_expiry (t : option Z)
| W_initiated (t : option Z)
| W_worker_id (w : option WorkerExtended.t).

Definition apply_write (wr : Write) (f : InterrogationsForms) : InterrogationsForms :=
  match wr with
  | W_state s =>
      {| id := id f; i_id := i_id f; name := name f; state := s;
         payload := payload f; result := result f; worker := worker f;
         created := created f; initiated := initiated f; expiry := expiry f |}
  | W_result r =>
      {| id := id f; i_id := i_id f; name := name f; state := state f;
         payload := payload f; result := r; worker := worker f;
         created := created f; initiated := initiated f; expiry := expiry f |}
  | W_expiry t =>
      {| id := id f; i_id := i_id f; name := name f; state := state f;
         payload := payload f; result := result f; worker := worker f;
         created := created f; initiated := initiated f; expiry := t |}
  | W_initiated t =>
      {| id := id f; i_id := i_id f; name := name f; state := state f;
         payload := payload f; result := result f; worker := worker f;
         created := created f; initiated := t; expiry := expiry f |}
  | W_worker_id w =>
      {| id := id f; i_id := i_id f; name := name f; state := state f;
         payload := payload f; result := result f; worker := w;
         created := created f; initiated := initiated f; expiry := expiry f |}
  end.

(** An instance as [InterrogationsForms(name=..., payload=..., i_id=...)]
    leaves it: the three attributes given are set and every other one,
    the id and the state included, is [None].  The defaults of the columns
    are applied when the row is inserted, which no method of this file
    waits for. *)
Record New_form : Type := {
  new_name : string;
  new_payload : option json;
  new_i_id : Z
}.

(** ** What a method does besides returning

    Every assignment to an attribute of the form, every commit and every
    call into a collaborator is appended to the trace, in program order. *)
Inductive Event : Type :=
| Set_ (wr : Write)
| Set_interrogation_expiry (t : Z)
| Session_add (form_entry : New_form)
| Commit
| Worker_record_interrogation (worker : Z) (kudos : pyval) (seconds_taken : Z)
| Worker_log_aborted_job (worker : Z)
| Interrogation_record_usage (interrogation : Z) (kudos : pyval)
| User_record_usage (raw_things : Z) (kudos : pyval)
| Logger_info_form (cancelled : bool) (form : option Z) (form_name : string)
                   (kudos : pyval) (worker_name : string) (interrogation : Z)
| Logger_info_aborted (form : option Z) (form_name : string)
                      (worker_name : string) (worker : Z).

(** The kudos handed to workers along a trace. *)
Fixpoint kudos_awarded (tr : list Event) : Z :=
  match tr with
  | [] => 0
  | Worker_record_interrogation _ (VInt k) _ :: tr' => k + kudos_awarded tr'
  | _ :: tr' => kudos_awarded tr'
  end.

(** ** Computations *)

Inductive Res (A : Type) : Type :=
| Ok (a : A)
| Raise (e : exn).
Arguments Ok {A} a.
Arguments Raise {A} e.

(** [self] is the object the method is called on, [utcnow] what
    [datetime.utcnow()] reads while the method runs. *)
Record World (O : Type) : Type := {
  self : O;
  utcnow : Z;
  trace : list Event
}.
Arguments self {O} _.
Arguments utcnow {O} _.
Arguments trace {O} _.

(** A method: from the world before to its outcome and the world after.
    A raised exception keeps what was assigned before it. *)
Definition M (O A : Type) : Type := World O -> Res A * World O.

Definition ret {O A} (a : A) : M O A := fun w => (Ok a, w).

Definition raise {O A} (e : exn) : M O A := fun w => (Raise e, w).

Definition bind {O A B} (c : M O A) (k : A -> M O B) : M O B :=
  fun w =>
    match c w with
    | (Ok a, w') => k a w'
    | (Raise e, w') => (Raise e, w')
    end.

Notation "x <- c ;; k" := (bind c (fun x => k))
  (at level 61, c at next level, right associativity).
Notation "c ;; k" := (bind c (fun _ => k))
  (at level 61, right associativity).

Definition get_self {O} : M O O := fun w => (Ok (self w), w).

Definition datetime_utcnow {O} : M O Z := fun w => (Ok (utcnow w), w).

Definition emit {O} (e : Event) : M O unit :=
  fun w => (Ok tt, {| self := self w; utcnow := utcnow w; trace := trace w ++ [e] |}).

(** [db.session.commit()] *)
Definition commit {O} : M O unit := emit Commit.

(** A global name read in a function body. *)
Definition load_global {O} (n : string) : M O pyval :=
  if mem_string n module_globals then ret (VObject n) else raise (NameError n).

(** ** class InterrogationsForms *)
Module InterrogationsForms.

Definition t : Type := InterrogationsForms.

Definition Method (A : Type) : Type := M InterrogationsForms A.

(** The attributes an instance has: its columns and relationships, and
    the methods of the class. *)
Definition attributes : list string :=
  [ "id"; "i_id"; "interrogation"; "name"; "state"; "payload"; "result";
    "worker_id"; "worker"; "created"; "initiated"; "expiry";
    "pop"; "deliver"; "cancel"; "record"; "abort";
    "log_aborted_interrogation"; "is_completed"; "is_FAULTED"; "is_stale";
    "delete" ].

(** [InterrogationsForms(name=..., payload=..., i_id=...)] *)
Definition init (name_ : string) (payload_ : option json) (i_id_ : Z) : New_form :=
  {| new_name := name_; new_payload := payload_; new_i_id := i_id_ |}.

(** [self.<attribute> = value] *)
Definition assign (wr : Write) : Method unit :=
  fun w =>
    (Ok tt, {| self := apply_write wr (self w); utcnow := utcnow w;
               trace := trace w ++ [Set_ wr] |}).

(** [db.session.query(InterrogationsForms).filter(InterrogationsForms.id ==
    self.id, cond).with_for_update().first()]: the row whose id is that of
    [self], when it passes [cond].  Within a session that row is the
    object [self].  An object that has no id yet has no row: with
    [self.id] being [None] the filter matches nothing. *)
Definition query_self_for_update (cond : t -> bool) : Method (option t) :=
  fun w =>
    (Ok (match id (self w) with
         | None => None
         | Some _ => if cond (self w) then Some (self w) else None
         end),
     w).

Section FormDeployment.

(** The configured life time of a claim, in seconds. *)
Variable form_ttl : Z.

(** Modelled from the spec: [get_interrogation_form_expiry_date] of
    horde.utils is not part of this file; the claim expiry is the
    current time plus the configured TTL. *)
Definition get_interrogation_form_expiry_date : Method Z :=
  now <- datetime_utcnow ;;
  ret (now + form_ttl).

Definition pop (worker_ : WorkerExtended.t) : Method pyval :=
  myself_refresh <- query_self_for_update
                      (fun f => State_eqb (state f) WAITING) ;;
  match myself_refresh with
  | None => ret VNone
  | Some _ =>
      assign (W_state PROCESSING) ;;
      commit ;;
      e <- get_interrogation_form_expiry_date ;;
      assign (W_expiry (Some e)) ;;
      now <- datetime_utcnow ;;
      assign (W_initiated (Some now)) ;;
      assign (W_worker_id (Some worker_)) ;;
      commit ;;
      s <- get_self ;;
      ret (VDict [ ("name", VStr (name s));
                   ("payload", of_column (payload s)) ])
  end.

End FormDeployment.

(** [self.<attribute>] for an attribute named in a method body. *)
Definition getattr_self (a : string) : Method pyval :=
  if mem_string a attributes then ret (VObject a)
  else raise (AttributeError "InterrogationsForms" a).

(** A call of [self.interrogation.record_usage] with keyword arguments:
    the method is declared as [record_usage(self, kudos)]. *)
Definition call_record_usage (kwargs : list (string * pyval)) : Method unit :=
  match kwargs with
  | [("kudos", kudos)] =>
      s <- get_self ;;
      emit (Interrogation_record_usage (i_id s) kudos)
  | _ => raise (TypeError "record_usage() got an unexpected keyword argument")
  end.

Definition record (kudos : pyval) : Method unit :=
  s <- get_self ;;
  let cancel_txt := State_eqb (state s) CANCELLED in
  match worker s with
  | None => raise (AttributeError "NoneType" "record_interrogation")
  | Some wk =>
      now <- datetime_utcnow ;;
      match initiated s with
      | None => raise (TypeError "unsupported operand type(s) for -")
      | Some t0 =>
          emit (Worker_record_interrogation (WorkerExtended.id wk) kudos
                  ((now - t0) mod 86400)) ;;
          wp <- getattr_self "wp" ;;
          call_record_usage [("raw_things", wp); ("kudos", kudos)] ;;
          emit (Logger_info_form cancel_txt (id s) (name s) kudos
                  (WorkerExtended.name wk) (i_id s))
      end
  end.

(** A call of [self.record] with positional arguments: the method is
    declared as [record(self, kudos)]. *)
Definition call_record (args : list pyval) : Method unit :=
  match args with
  | [kudos] => record kudos
  | _ => raise (TypeError "record() takes 2 positional arguments")
  end.

Definition deliver (result_ : option json) : Method Z :=
  s <- get_self ;;
  if negb (State_eqb (state s) PROCESSING) then ret 0
  else
    assign (W_result result_) ;;
    assign (W_state DONE) ;;
    let kudos := 1 in
    things_per_sec <- load_global "things_per_sec" ;;
    call_record [things_per_sec; VInt kudos] ;;
    commit ;;
    ret kudos.

Definition cancel : Method Z :=
  s <- get_self ;;
  if negb (State_eqb (state s) PROCESSING) then ret 0
  else
    assign (W_result None) ;;
    assign (W_state CANCELLED) ;;
    let kudos := 1 in
    things_per_sec <- load_global "things_per_sec" ;;
    call_record [things_per_sec; VInt kudos] ;;
    commit ;;
    ret kudos.

Definition log_aborted_interrogation : Method unit :=
  s <- get_self ;;
  match worker s with
  | None => raise (AttributeError "NoneType" "name")
  | Some wk =>
      emit (Logger_info_aborted (id s) (name s) (WorkerExtended.name wk)
              (WorkerExtended.id wk))
  end.

(** The method returns nothing in either branch. *)
Definition abort : Method unit :=
  s <- get_self ;;
  if negb (State_eqb (state s) PROCESSING) then ret tt
  else
    assign (W_state FAULTED) ;;
    s <- get_self ;;
    match worker s with
    | None => raise (AttributeError "NoneType" "log_aborted_job")
    | Some wk =>
        emit (Worker_log_aborted_job (WorkerExtended.id wk)) ;;
        log_aborted_interrogation ;;
        assign (W_state WAITING) ;;
        commit
    end.

Definition is_completed : Method bool :=
  s <- get_self ;;
  ret (State_eqb (state s) DONE).

Definition is_FAULTED : Method bool :=
  s <- get_self ;;
  ret (State_eqb (state s) FAULTED).

(** [ttl] is accepted and not used. *)
Definition is_stale (ttl : Z) : Method bool :=
  s <- get_self ;;
  if existsb (State_eqb (state s)) [FAULTED; CANCELLED; DONE] then ret false
  else
    now <- datetime_utcnow ;;
    match expiry s with
    | None => raise (TypeError "'>' not supported between instances of 'datetime.datetime' and 'NoneType'")
    | Some e => ret (e <? now)
    end.

End InterrogationsForms.

(** ** class Interrogation *)

(** A form requested at submission: a dict with a ["name"] and, maybe, a
    ["payload"]. *)
Definition dict_get (d : list (string * json)) (k : string) : option json :=
  option_map snd (find (fun kv => String.eqb (fst kv) k) d).

Definition dict_getitem {O} (d : list (string * json)) (k : string) : M O json :=
  match dict_get d k with
  | Some v => ret v
  | None => raise (KeyError k)
  end.

Module Interrogation.

Record t : Type := {
  id : Z;
  source_image : string;
  user_id : option Z;
  ipaddr : option string;
  safe_ip : bool;
  trusted_workers : bool;
  r2stored : bool;
  expiry : Z;
  created : Z;
  (* the rows of interrogation_forms whose [i_id] is [id], oldest first *)
  forms : list InterrogationsForms
}.

Definition Method (A : Type) : Type := M t A.

(** What an attribute of an instance evaluates to. *)
Inductive attr : Type :=
| Value (v : pyval)
| Forms (l : list InterrogationsForms)
| Bound_method (n : string).

Definition of_option {A} (f : A -> pyval) (o : option A) : pyval :=
  match o with
  | None => VNone
  | Some a => f a
  end.

(** The attributes of an instance: the columns and relationships with
    their values, then the methods of the class. *)
Definition attributes (s : t) : list (string * attr) :=
  [ ("id", Value (VInt (id s)));
    ("source_image", Value (VStr (source_image s)));
    ("user_id", Value (of_option VInt (user_id s)));
    ("user", Value (of_option (fun _ => VObject "User") (user_id s)));
    ("ipaddr", Value (of_option VStr (ipaddr s)));
    ("safe_ip", Value (VBool (safe_ip s)));
    ("trusted_workers", Value (VBool (trusted_workers s)));
    ("r2stored", Value (VBool (r2stored s)));
    ("expiry", Value (VInt (expiry s)));
    ("created", Value (VInt (created s)));
    ("forms", Forms (forms s)) ]
  ++ map (fun n => (n, Bound_method n))
     [ "set_source_image"; "refresh"; "is_stale"; "set_forms";
       "get_form_names"; "start_interrogation"; "get_pop_payload";
       "needs_interrogation"; "is_completed"; "get_status"; "record_usage" ].

Definition getattr_self (a : string) : Method attr :=
  s <- get_self ;;
  match find (fun kv => String.eqb (fst kv) a) (attributes s) with
  | Some (_, v) => ret v
  | None => raise (AttributeError "Interrogation" a)
  end.

Definition attr_truthy (v : attr) : bool :=
  match v with
  | Value v => truthy v
  | Forms l => match l with [] => false | _ => true end
  | Bound_method _ => true
  end.

Definition with_forms (l : list InterrogationsForms) (s : t) : t :=
  {| id := id s; source_image := source_image s; user_id := user_id s;
     ipaddr := ipaddr s; safe_ip := safe_ip s;
     trusted_workers := trusted_workers s; r2stored := r2stored s;
     expiry := expiry s; created := created s; forms := l |}.

Definition with_expiry (e : Z) (s : t) : t :=
  {| id := id s; source_image := source_image s; user_id := user_id s;
     ipaddr := ipaddr s; safe_ip := safe_ip s;
     trusted_workers := trusted_workers s; r2stored := r2stored s;
     expiry := e; created := created s; forms := forms s |}.

(** [db.session.add(form_entry)]: the new object is handed to the session.
    Nothing is inserted yet and [self.forms] is not touched. *)
Definition session_add (form_entry : New_form) : Method unit :=
  emit (Session_add form_entry).

Section JobDeployment.

(** The configured life time of an interrogation, in seconds. *)
Variable interrogation_ttl : Z.

(** Modelled from the spec: [get_expiry_date] of horde.utils is not part
    of this file; the expiry of a job is extended to the current time
    plus the configured window. *)
Definition get_expiry_date : Method Z :=
  now <- datetime_utcnow ;;
  ret (now + interrogation_ttl).

Definition refresh : Method unit :=
  e <- get_expiry_date ;;
  (fun w => (Ok tt, {| self := with_expiry e (self w); utcnow := utcnow w;
                       trace := trace w ++ [Set_interrogation_expiry e] |})) ;;
  commit.

(** [self.user] is [None] when the job has no [user_id]. *)
Definition record_usage (kudos : pyval) : Method unit :=
  s <- get_self ;;
  match user_id s with
  | None => raise (AttributeError "NoneType" "record_usage")
  | Some _ =>
      emit (User_record_usage 0 kudos) ;;
      refresh
  end.

End JobDeployment.

Definition is_stale : Method bool :=
  s <- get_self ;;
  now <- datetime_utcnow ;;
  if expiry s <? now then ret true else ret false.

(** The body of the loop of [set_forms] over the forms still to visit;
    [seen_names] is the list the loop tests and never extends. *)
Fixpoint set_forms_loop (seen_names : list string)
    (forms_ : list (list (string * json))) : Method unit :=
  match forms_ with
  | [] => ret tt
  | form :: rest =>
      n <- dict_getitem form "name" ;;
      if mem_string n seen_names then set_forms_loop seen_names rest
      else
        s <- get_self ;;
        let form_entry :=
          InterrogationsForms.init n (dict_get form "payload") (id s) in
        session_add form_entry ;;
        set_forms_loop seen_names rest
  end.

Definition set_forms (forms_ : option (list (list (string * json)))) : Method unit :=
  let forms_ := match forms_ with
                | None => []
                | Some l => l
                end in
  let seen_names := [] in
  set_forms_loop seen_names forms_.

Definition get_form_names : Method (list string) :=
  s <- get_self ;;
  ret (map name (forms s)).

Definition is_none {A} (o : option A) : bool :=
  match o with
  | None => true
  | Some _ => false
  end.

Definition needs_interrogation : Method bool :=
  form <- getattr_self "form" ;;
  match form with
  | Forms l => ret (existsb (fun form => is_none (result form)) l)
  | _ => raise (TypeError "object is not iterable")
  end.

Definition is_completed : Method bool :=
  faulted <- getattr_self "FAULTED" ;;
  if attr_truthy faulted then ret true
  else
    need <- needs_interrogation ;;
    if need then ret false else ret true.

(** The loop of [get_status]: the form dicts appended so far and the
    three flags. *)
Definition get_status_step (acc : list pyval * bool * bool * bool)
    (form : InterrogationsForms) : list pyval * bool * bool * bool :=
  let '(form_dicts, all_faulted, all_done, processing) := acc in
  let form_dict :=
    VDict [ ("name", VStr (name form));
            ("state", VStr (State_name (state form)));
            ("result", of_column (result form)) ] in
  ( form_dicts ++ [form_dict],
    if negb (State_eqb (state form) FAULTED) then false else all_faulted,
    if negb (State_eqb (state form) DONE) then false else all_done,
    if State_eqb (state form) PROCESSING then true else processing ).

Definition get_status : Method pyval :=
  s <- get_self ;;
  let '(form_dicts, all_faulted, all_done, processing) :=
    fold_left get_status_step (forms s) ([], true, true, false) in
  let state_ :=
    if all_faulted then VStr (State_name FAULTED)
    else if all_done then VStr (State_name DONE)
    else if processing then VStr (State_name PROCESSING)
    else VEnum WAITING in
  ret (VDict [ ("state", state_); ("forms", VList form_dicts) ]).

End Interrogation.

(** * Worlds used in the statements *)

(** The world a successful [pop] leaves behind. *)
Definition claimed (ttl : Z) (wk : WorkerExtended.t)
    (w : World InterrogationsForms) : World InterrogationsForms :=
  let f := self w in
  {| self :=
       {| id := id f; i_id := i_id f; name := name f; state := PROCESSING;
          payload := payload f; result := result f; worker := Some wk;
          created := created f; initiated := Some (utcnow w);
          expiry := Some (utcnow w + ttl) |};
     utcnow := utcnow w;
     trace := trace w ++
              [ Set_ (W_state PROCESSING); Commit;
                Set_ (W_expiry (Some (utcnow w + ttl)));
                Set_ (W_initiated (Some (utcnow w)));
                Set_ (W_worker_id (Some wk)); Commit ] |}.

(** The world with the clock moved to [now]. *)
Definition at_time {O} (now : Z) (w : World O) : World O :=
  {| self := self w; utcnow := now; trace := trace w |}.

(** A worker, the row of a form that was never claimed, and the worlds it
    goes through when it is claimed at time 100 for 60 seconds, aborted,
    and looked at again at time 500. *)
Definition alice : WorkerExtended.t :=
  {| WorkerExtended.id := 7; WorkerExtended.name := "alice" |}.

Definition caption_form : InterrogationsForms :=
  {| id := Some 1; i_id := 1; name := "caption"; state := WAITING;
     payload := Some "{}"; result := None; worker := None;
     created := 100; initiated := None; expiry := None |}.

Definition w_fresh : World InterrogationsForms :=
  {| self := caption_form; utcnow := 100; trace := [] |}.

(** An object in the same state that has not been inserted: it has no id. *)
Definition w_unsaved : World InterrogationsForms :=
  {| self :=
       {| id := None; i_id := 1; name := "caption"; state := WAITING;
          payload := Some "{}"; result := None; worker := None;
          created := 100; initiated := None; expiry := None |};
     utcnow := 100; trace := [] |}.

Definition w_claimed : World InterrogationsForms :=
  snd (InterrogationsForms.pop 60 alice w_fresh).

Definition w_aborted : World InterrogationsForms :=
  snd (InterrogationsForms.abort (at_time 200 w_claimed)).

Definition w_later : World InterrogationsForms := at_time 500 w_aborted.

(** A form that is DONE and one that is CANCELLED. *)
Definition w_done : World InterrogationsForms :=
  {| self := apply_write (W_state DONE)
               (apply_write (W_result (Some "a cat")) (self w_claimed));
     utcnow := 130; trace := [] |}.

Definition w_cancelled : World InterrogationsForms :=
  {| self := apply_write (W_state CANCELLED) (self w_claimed);
     utcnow := 130; trace := [] |}.

(** The world [deliver] stops in on a PROCESSING form. *)
Definition delivered_in_memory (r : option json)
    (w : World InterrogationsForms) : World InterrogationsForms :=
  {| self := apply_write (W_state DONE) (apply_write (W_result r) (self w));
     utcnow := utcnow w;
     trace := trace w ++ [Set_ (W_result r); Set_ (W_state DONE)] |}.

(** The world [abort] leaves behind on a PROCESSING form held by [wk]. *)
Definition reopened (wk : WorkerExtended.t)
    (w : World InterrogationsForms) : World InterrogationsForms :=
  {| self := apply_write (W_state WAITING) (self w);
     utcnow := utcnow w;
     trace := trace w ++
              [ Set_ (W_state FAULTED);
                Worker_log_aborted_job (WorkerExtended.id wk);
                Logger_info_aborted (id (self w)) (name (self w))
                  (WorkerExtended.name wk) (WorkerExtended.id wk);
                Set_ (W_state WAITING); Commit ] |}.

(** ** Jobs *)

(** The dict [get_status] reports for one form. *)
Definition reported (form : InterrogationsForms) : pyval :=
  VDict [ ("name", VStr (name form));
          ("state", VStr (State_name (state form)));
          ("result", of_column (result form)) ].

(** The member of [State] a reported state stands for: the member itself
    or the member of that name. *)
Definition state_denoted (v : pyval) : option State :=
  match v with
  | VEnum s => Some s
  | VStr n => State_of_name n
  | _ => None
  end.

(** The aggregate state as the spec derives it: FAULTED if every sub-task
    is FAULTED, else DONE if every sub-task is DONE, else PROCESSING if any
    sub-task is PROCESSING, else WAITING. *)
Definition aggregate_state (l : list InterrogationsForms) : State :=
  if forallb (fun f => State_eqb (state f) FAULTED) l then FAULTED
  else if forallb (fun f => State_eqb (state f) DONE) l then DONE
  else if existsb (fun f => State_eqb (state f) PROCESSING) l then PROCESSING
  else WAITING.

(** A job without forms, and the job whose forms are in the given states. *)
Definition job0 : Interrogation.t :=
  {| Interrogation.id := 1;
     Interrogation.source_image := "https://example.org/cat.png";
     Interrogation.user_id := Some 3;
     Interrogation.ipaddr := None;
     Interrogation.safe_ip := true;
     Interrogation.trusted_workers := false;
     Interrogation.r2stored := false;
     Interrogation.expiry := 1300;
     Interrogation.created := 100;
     Interrogation.forms := [] |}.

Definition w_job0 : World Interrogation.t :=
  {| self := job0; utcnow := 100; trace := [] |}.

Definition job_in_states (l : list State) : World Interrogation.t :=
  {| self := Interrogation.with_forms
               (map (fun s => apply_write (W_state s) caption_form) l) job0;
     utcnow := 100; trace := [] |}.

(** The ["state"] entry of what [get_status] returns. *)
Definition status_state (r : Res pyval) : option pyval :=
  match r with
  | Ok (VDict (("state", st) :: _)) => Some st
  | _ => None
  end.

(** The new forms handed to the session along a trace, oldest first. *)
Fixpoint added (tr : list Event) : list New_form :=
  match tr with
  | [] => []
  | Session_add form_entry :: tr' => form_entry :: added tr'
  | _ :: tr' => added tr'
  end.

(** The submission of the spec's duplicate example. *)
Definition caption_caption_tags : list (list (string * json)) :=
  [ [("name", "caption")]; [("name", "caption")]; [("name", "tags")] ].

(** ** Further worlds of a form *)

(** The world [cancel] stops in on a PROCESSING form. *)
Definition cancelled_in_memory
    (w : World InterrogationsForms) : World InterrogationsForms :=
  {| self := apply_write (W_state CANCELLED)
               (apply_write (W_result None) (self w));
     utcnow := utcnow w;
     trace := trace w ++ [Set_ (W_result None); Set_ (W_state CANCELLED)] |}.

(** The world [abort] stops in on a PROCESSING form that has no worker. *)
Definition faulted_in_memory
    (w : World InterrogationsForms) : World InterrogationsForms :=
  {| self := apply_write (W_state FAULTED) (self w);
     utcnow := utcnow w;
     trace := trace w ++ [Set_ (W_state FAULTED)] |}.

(** The world after the worker of a form was told its reward. *)
Definition rewarded (wk : WorkerExtended.t) (kudos : pyval) (t0 : Z)
    (w : World InterrogationsForms) : World InterrogationsForms :=
  {| self := self w;
     utcnow := utcnow w;
     trace := trace w ++
              [ Worker_record_interrogation (WorkerExtended.id wk) kudos
                  ((utcnow w - t0) mod 86400) ] |}.

(** A form whose state was committed as PROCESSING while its worker is
    not set yet, as between the two commits of [pop]. *)
Definition w_unassigned : World InterrogationsForms :=
  {| self := apply_write (W_state PROCESSING) caption_form;
     utcnow := 100; trace := [] |}.

(** A form on its own, for the methods that only read it. *)
Definition form_world (f : InterrogationsForms) : World InterrogationsForms :=
  {| self := f; utcnow := 0; trace := [] |}.

(** ** Sequences of calls on a form *)

(** A call of one of the methods that workers and the sweep use. *)
Inductive Call : Type :=
| Pop (ttl : Z) (wk : WorkerExtended.t)
| Deliver (r : option json)
| Cancel
| Abort
| Is_stale (ttl : Z).

(** The world after a call, whatever it returned or raised. *)
Definition run_call (c : Call)
    (w : World InterrogationsForms) : World InterrogationsForms :=
  match c with
  | Pop ttl wk => snd (InterrogationsForms.pop ttl wk w)
  | Deliver r => snd (InterrogationsForms.deliver r w)
  | Cancel => snd (InterrogationsForms.cancel w)
  | Abort => snd (InterrogationsForms.abort w)
  | Is_stale ttl => snd (InterrogationsForms.is_stale ttl w)
  end.

(** The world after a list of calls, each made at its own time. *)
Definition run_calls (cs : list (Z * Call))
    (w : World InterrogationsForms) : World InterrogationsForms :=
  fold_left (fun w tc => run_call (snd tc) (at_time (fst tc) w)) cs w.

(** The events that tell a worker, a job or the log about a reward. *)
Definition rewards (e : Event) : bool :=
  match e with
  | Worker_record_interrogation _ _ _ => true
  | Interrogation_record_usage _ _ => true
  | User_record_usage _ _ => true
  | Logger_info_form _ _ _ _ _ _ => true
  | _ => false
  end.

(** The event that tells a worker it let a form go stale. *)
Definition is_fault (e : Event) : bool :=
  match e with
  | Worker_log_aborted_job _ => true
  | _ => false
  end.

(** A second worker. *)
Definition bob : WorkerExtended.t :=
  {| WorkerExtended.id := 8; WorkerExtended.name := "bob" |}.

(** A form that is past WAITING has its worker, claim time and claim
    expiry. *)
Definition claim_recorded (f : InterrogationsForms) : Prop :=
  state f <> WAITING ->
  worker f <> None /\ initiated f <> None /\ expiry f <> None.

(** ** Further jobs *)

(** Whether a requested form has a ["name"]. *)
Definition has_name (d : list (string * json)) : bool :=
  match dict_get d "name" with
  | Some _ => true
  | None => false
  end.

(** The form [set_forms] constructs for a request that has a name, in
    the job [job_id]. *)
Definition form_for (job_id : Z) (d : list (string * json)) : New_form :=
  InterrogationsForms.init
    (match dict_get d "name" with Some n => n | None => "" end)
    (dict_get d "payload") job_id.

(** The world of a job after the new forms [fs] were handed to the
    session. *)
Definition with_added (fs : list New_form)
    (w : World Interrogation.t) : World Interrogation.t :=
  {| self := self w; utcnow := utcnow w;
     trace := trace w ++ map Session_add fs |}.

(** A job submitted without a user. *)
Definition w_job_anonymous : World Interrogation.t :=
  {| self :=
       {| Interrogation.id := 2;
          Interrogation.source_image := "https://example.org/dog.png";
          Interrogation.user_id := None;
          Interrogation.ipaddr := None;
          Interrogation.safe_ip := true;
          Interrogation.trusted_workers := false;
          Interrogation.r2stored := false;
          Interrogation.expiry := 1300;
          Interrogation.created := 100;
          Interrogation.forms := [] |};
     utcnow := 100; trace := [] |}.

(** A request whose second form has no name. *)
Definition caption_anonymous_tags : list (list (string * json)) :=
  [ [("name", "caption")]; [("payload", "{}")]; [("name", "tags")] ].

(** * Properties *)

(** ** Enum members *)

Lemma State_eqb_eq (a b : State) : State_eqb a b = true <-> a = b.
Proof.
  split.
  - destruct a, b; simpl; intros H; try reflexivity; discriminate H.
  - intros ->. destruct b; reflexivity.
Qed.

Lemma State_eqb_refl (a : State) : State_eqb a a = true.
Proof. apply State_eqb_eq. reflexivity. Qed.

Lemma State_eqb_neq (a b : State) : State_eqb a b = false <-> a <> b.
Proof.
  split.
  - intros H E. apply State_eqb_eq in E. congruence.
  - intros H. destruct (State_eqb a b) eqn:E; [| reflexivity].
    apply State_eqb_eq in E. contradiction.
Qed.

Lemma State_of_name_name (s : State) : State_of_name (State_name s) = Some s.
Proof. destruct s; reflexivity. Qed.

(** ** Traces *)

Lemma kudos_awarded_app (t1 t2 : list Event) :
  kudos_awarded (t1 ++ t2) = kudos_awarded t1 + kudos_awarded t2.
Proof.
  induction t1 as [| e t1 IH]; simpl; [reflexivity |].
  destruct e; try exact IH.
  destruct kudos; try exact IH.
  rewrite IH. lia.
Qed.

(** Unfolds a method body down to the world it computes on. *)
Ltac run :=
  unfold InterrogationsForms.pop, InterrogationsForms.deliver,
    InterrogationsForms.cancel, InterrogationsForms.abort,
    InterrogationsForms.is_stale, InterrogationsForms.record,
    InterrogationsForms.call_record, InterrogationsForms.call_record_usage,
    InterrogationsForms.log_aborted_interrogation,
    InterrogationsForms.get_interrogation_form_expiry_date,
    InterrogationsForms.query_self_for_update, InterrogationsForms.assign,
    InterrogationsForms.getattr_self,
    load_global, commit, emit, datetime_utcnow, get_self, bind, ret, raise;
  simpl.

(** ** Claiming a form *)

Lemma pop_waiting (ttl : Z) (wk : WorkerExtended.t) (w : World InterrogationsForms) :
  id (self w) <> None ->
  state (self w) = WAITING ->
  InterrogationsForms.pop ttl wk w =
    (Ok (VDict [ ("name", VStr (name (self w)));
                 ("payload", of_column (payload (self w))) ]),
     claimed ttl wk w).
Proof.
  intros Hi H. destruct w as [f now tr]. simpl in Hi, H.
  run. destruct (id f) as [i |] eqn:E; [| contradiction].
  rewrite H. simpl. unfold claimed. simpl. rewrite E.
  repeat rewrite <- app_assoc. simpl. reflexivity.
Qed.

Lemma pop_not_waiting (ttl : Z) (wk : WorkerExtended.t) (w : World InterrogationsForms) :
  state (self w) <> WAITING ->
  InterrogationsForms.pop ttl wk w = (Ok VNone, w).
Proof.
  intros H. run. destruct (id (self w)); [| reflexivity].
  destruct (state (self w)); try reflexivity. contradiction.
Qed.

Lemma pop_without_id (ttl : Z) (wk : WorkerExtended.t) (w : World InterrogationsForms) :
  id (self w) = None ->
  InterrogationsForms.pop ttl wk w = (Ok VNone, w).
Proof.
  intros H. run. rewrite H. reflexivity.
Qed.

(** C1. [pop] succeeds only on a WAITING form.  On a WAITING form that
    has its row in the table (its id is set) it moves the state to
    PROCESSING, sets the worker, the claim time to the current time and the
    claim expiry to the current time plus the configured TTL, leaves every
    other column alone, and returns a dict whose keys are exactly ["name"]
    and ["payload"], holding the form's name and its payload.  On a form
    in any other state, and on an object that has no id yet, it returns
    [None] and changes nothing. *)
Theorem pop_claims_exactly_waiting_forms :
  forall (ttl : Z) (wk : WorkerExtended.t) (w : World InterrogationsForms),
    (id (self w) <> None ->
     state (self w) = WAITING ->
       let r := fst (InterrogationsForms.pop ttl wk w) in
       let f' := self (snd (InterrogationsForms.pop ttl wk w)) in
       r = Ok (VDict [ ("name", VStr (name (self w)));
                       ("payload", of_column (payload (self w))) ])
       /\ state f' = PROCESSING
       /\ worker f' = Some wk
       /\ worker_id f' = Some (WorkerExtended.id wk)
       /\ initiated f' = Some (utcnow w)
       /\ expiry f' = Some (utcnow w + ttl)
       /\ id f' = id (self w) /\ i_id f' = i_id (self w)
       /\ name f' = name (self w) /\ payload f' = payload (self w)
       /\ result f' = result (self w) /\ created f' = created (self w))
    /\ (state (self w) <> WAITING ->
          InterrogationsForms.pop ttl wk w = (Ok VNone, w))
    /\ (id (self w) = None ->
          InterrogationsForms.pop ttl wk w = (Ok VNone, w))
    /\ (forall d, fst (InterrogationsForms.pop ttl wk w) = Ok (VDict d) ->
          state (self w) = WAITING /\ id (self w) <> None
          /\ map fst d = ["name"; "payload"]).
Proof.
  intros ttl wk w. split; [| split; [| split]].
  - intros Hi H. rewrite (pop_waiting ttl wk w Hi H). simpl.
    repeat split; reflexivity.
  - apply pop_not_waiting.
  - apply pop_without_id.
  - intros d Hd.
    destruct (id (self w)) as [i |] eqn:I.
    + destruct (State_eqb (state (self w)) WAITING) eqn:E.
      * apply State_eqb_eq in E. split; [exact E |].
        split; [discriminate |].
        rewrite (pop_waiting ttl wk w) in Hd;
          [| rewrite I; discriminate | exact E].
        simpl in Hd. injection Hd as <-. reflexivity.
      * apply State_eqb_neq in E.
        rewrite (pop_not_waiting ttl wk w E) in Hd. simpl in Hd.
        discriminate Hd.
    + rewrite (pop_without_id ttl wk w I) in Hd. simpl in Hd. discriminate Hd.
Qed.

Lemma pop_claims_exactly_waiting_forms_witness :
  id (self w_fresh) <> None
  /\ state (self w_fresh) = WAITING
  /\ fst (InterrogationsForms.pop 60 alice w_fresh) =
       Ok (VDict [ ("name", VStr "caption"); ("payload", VJson "{}") ])
  /\ state (self (snd (InterrogationsForms.pop 60 alice w_fresh))) = PROCESSING
  /\ state (self w_claimed) <> WAITING
  /\ InterrogationsForms.pop 60 alice w_claimed = (Ok VNone, w_claimed)
  /\ id (self w_unsaved) = None
  /\ InterrogationsForms.pop 60 alice w_unsaved = (Ok VNone, w_unsaved).
Proof.
  assert (I : id (self w_fresh) <> None) by (simpl; discriminate).
  split; [exact I |]. split; [reflexivity |]. split.
  { exact (proj1 (proj1 (pop_claims_exactly_waiting_forms 60 alice w_fresh)
                    I eq_refl)). }
  split.
  { exact (proj1 (proj2 (proj1 (pop_claims_exactly_waiting_forms 60 alice
                                  w_fresh) I eq_refl))). }
  split; [vm_compute; discriminate |]. split.
  { apply (proj1 (proj2 (pop_claims_exactly_waiting_forms 60 alice w_claimed))).
    vm_compute. discriminate. }
  split; [reflexivity |].
  exact (proj1 (proj2 (proj2 (pop_claims_exactly_waiting_forms 60 alice
                                w_unsaved))) eq_refl).
Defined.

(** A second claim right after a successful one finds no work. *)
Lemma pop_twice (ttl ttl' : Z) (wk wk' : WorkerExtended.t)
    (w : World InterrogationsForms) :
  id (self w) <> None ->
  state (self w) = WAITING ->
  InterrogationsForms.pop ttl' wk' (snd (InterrogationsForms.pop ttl wk w)) =
    (Ok VNone, claimed ttl wk w).
Proof.
  intros Hi H. rewrite (pop_waiting ttl wk w Hi H). simpl.
  apply pop_not_waiting. simpl. discriminate.
Qed.

(** ** Delivering, cancelling, aborting *)

Lemma deliver_not_processing (r : option json) (w : World InterrogationsForms) :
  state (self w) <> PROCESSING ->
  InterrogationsForms.deliver r w = (Ok 0, w).
Proof.
  intros H. run. destruct (state (self w)); try reflexivity. contradiction.
Qed.

Lemma cancel_not_processing (w : World InterrogationsForms) :
  state (self w) <> PROCESSING ->
  InterrogationsForms.cancel w = (Ok 0, w).
Proof.
  intros H. run. destruct (state (self w)); try reflexivity. contradiction.
Qed.

Lemma abort_not_processing (w : World InterrogationsForms) :
  state (self w) <> PROCESSING ->
  InterrogationsForms.abort w = (Ok tt, w).
Proof.
  intros H. run. destruct (state (self w)); try reflexivity. contradiction.
Qed.

(** [record], called the way it is declared, does not return either: after
    the worker's reward it reads [self.wp], which no form has. *)
Lemma record_raises (kudos : pyval) (w : World InterrogationsForms) :
  exists e, fst (InterrogationsForms.record kudos w) = Raise e.
Proof.
  run. destruct (worker (self w)) as [wk |]; simpl.
  - destruct (initiated (self w)) as [t0 |]; simpl; eexists; reflexivity.
  - eexists; reflexivity.
Qed.

(** C3. What [deliver] does on a PROCESSING form: it stores the result and
    sets the state to DONE on the object, then stops with [NameError] on
    the unbound name [things_per_sec], before [record] is called, before
    the commit and without returning any kudos. *)
Theorem deliver_on_processing_raises_NameError :
  forall (r : option json) (w : World InterrogationsForms),
    state (self w) = PROCESSING ->
    InterrogationsForms.deliver r w =
      (Raise (NameError "things_per_sec"), delivered_in_memory r w)
    /\ kudos_awarded (trace (snd (InterrogationsForms.deliver r w))) =
       kudos_awarded (trace w).
Proof.
  intros r w H.
  assert (E : InterrogationsForms.deliver r w =
              (Raise (NameError "things_per_sec"), delivered_in_memory r w)).
  { destruct w as [f now tr]. simpl in H. run. rewrite H. simpl.
    unfold delivered_in_memory. simpl.
    rewrite <- app_assoc. reflexivity. }
  split; [exact E |].
  rewrite E. simpl. rewrite kudos_awarded_app. simpl. lia.
Qed.

Lemma deliver_on_processing_raises_NameError_witness :
  state (self w_claimed) = PROCESSING
  /\ fst (InterrogationsForms.deliver (Some "a cat") w_claimed) =
       Raise (NameError "things_per_sec").
Proof.
  split; [reflexivity |].
  rewrite (proj1 (deliver_on_processing_raises_NameError (Some "a cat")
                    w_claimed eq_refl)).
  reflexivity.
Defined.

(** C4. On a form that is DONE or CANCELLED, [deliver] and [cancel] return
    0 and [abort] returns (it has no return value in any state); none of
    them raises, awards kudos, or changes the form or anything else. *)
Theorem terminal_forms_ignore_deliver_cancel_abort :
  forall (r : option json) (w : World InterrogationsForms),
    state (self w) = DONE \/ state (self w) = CANCELLED ->
    InterrogationsForms.deliver r w = (Ok 0, w)
    /\ InterrogationsForms.cancel w = (Ok 0, w)
    /\ InterrogationsForms.abort w = (Ok tt, w).
Proof.
  intros r w H.
  assert (N : state (self w) <> PROCESSING).
  { destruct H as [H | H]; rewrite H; discriminate. }
  split; [| split].
  - apply deliver_not_processing, N.
  - apply cancel_not_processing, N.
  - apply abort_not_processing, N.
Qed.

Lemma terminal_forms_ignore_deliver_cancel_abort_witness :
  (state (self w_done) = DONE \/ state (self w_done) = CANCELLED)
  /\ InterrogationsForms.deliver (Some "a dog") w_done = (Ok 0, w_done)
  /\ InterrogationsForms.cancel w_cancelled = (Ok 0, w_cancelled)
  /\ InterrogationsForms.abort w_done = (Ok tt, w_done).
Proof.
  split; [left; reflexivity |]. split; [| split].
  - exact (proj1 (terminal_forms_ignore_deliver_cancel_abort (Some "a dog")
                    w_done (or_introl eq_refl))).
  - exact (proj1 (proj2 (terminal_forms_ignore_deliver_cancel_abort None
                           w_cancelled (or_intror eq_refl)))).
  - exact (proj2 (proj2 (terminal_forms_ignore_deliver_cancel_abort None
                           w_done (or_introl eq_refl)))).
Defined.

Lemma abort_processing (wk : WorkerExtended.t) (w : World InterrogationsForms) :
  state (self w) = PROCESSING ->
  worker (self w) = Some wk ->
  InterrogationsForms.abort w = (Ok tt, reopened wk w).
Proof.
  intros H Hw. destruct w as [f now tr]. destruct f. simpl in H, Hw. subst.
  run. unfold reopened. simpl.
  repeat rewrite <- app_assoc. reflexivity.
Qed.

(** C8, as the code has it.  On a PROCESSING form whose worker is set,
    [abort] logs the fault on the worker and then the aborted form, both
    while the state is FAULTED, sets the state back to WAITING and commits;
    the worker reference and every other column stay as they were and no
    kudos is awarded.  The form, when it has its row, can be claimed
    again, and a second [abort] does nothing. *)
Theorem abort_reopens_processing_form :
  forall (wk : WorkerExtended.t) (w : World InterrogationsForms),
    state (self w) = PROCESSING ->
    worker (self w) = Some wk ->
    let w' := snd (InterrogationsForms.abort w) in
    fst (InterrogationsForms.abort w) = Ok tt
    /\ trace w' =
         trace w ++
         [ Set_ (W_state FAULTED);
           Worker_log_aborted_job (WorkerExtended.id wk);
           Logger_info_aborted (id (self w)) (name (self w))
             (WorkerExtended.name wk) (WorkerExtended.id wk);
           Set_ (W_state WAITING); Commit ]
    /\ self w' = apply_write (W_state WAITING) (self w)
    /\ state (self w') = WAITING
    /\ worker (self w') = Some wk
    /\ kudos_awarded (trace w') = kudos_awarded (trace w)
    /\ (id (self w) <> None ->
        forall ttl wk', exists d,
          fst (InterrogationsForms.pop ttl wk' w') = Ok (VDict d))
    /\ InterrogationsForms.abort w' = (Ok tt, w').
Proof.
  intros wk w H Hw. cbv zeta.
  rewrite (abort_processing wk w H Hw). cbn [fst snd].
  split; [reflexivity |]. split; [reflexivity |]. split; [reflexivity |].
  split; [reflexivity |]. split; [exact Hw |]. split; [| split].
  - unfold reopened. cbn [trace]. rewrite kudos_awarded_app. simpl. lia.
  - intros Hi ttl wk'. eexists.
    rewrite pop_waiting; [reflexivity | exact Hi | reflexivity].
  - apply abort_not_processing. simpl. discriminate.
Qed.

Lemma abort_reopens_processing_form_witness :
  state (self (at_time 200 w_claimed)) = PROCESSING
  /\ worker (self (at_time 200 w_claimed)) = Some alice
  /\ id (self (at_time 200 w_claimed)) <> None
  /\ state (self w_aborted) = WAITING
  /\ (exists d, fst (InterrogationsForms.pop 30 bob w_aborted) = Ok (VDict d))
  /\ InterrogationsForms.abort w_aborted = (Ok tt, w_aborted).
Proof.
  assert (I : id (self (at_time 200 w_claimed)) <> None)
    by (simpl; discriminate).
  split; [reflexivity |]. split; [reflexivity |]. split; [exact I |].
  split; [| split].
  - exact (proj1 (proj2 (proj2 (proj2
      (abort_reopens_processing_form alice (at_time 200 w_claimed)
         eq_refl eq_refl))))).
  - exact (proj1 (proj2 (proj2 (proj2 (proj2 (proj2 (proj2
      (abort_reopens_processing_form alice (at_time 200 w_claimed)
         eq_refl eq_refl)))))))
      I 30 bob).
  - exact (proj2 (proj2 (proj2 (proj2 (proj2 (proj2 (proj2
      (abort_reopens_processing_form alice (at_time 200 w_claimed)
         eq_refl eq_refl)))))))).
Defined.

(** C8, as the spec words it, fails on a PROCESSING form whose worker is
    not set, which is what the first commit of [pop] leaves in the table
    until the second: [abort] raises at the worker and the state stays
    FAULTED. *)
Lemma abort_raises_on_form_without_worker :
  ~ (state (self w_unassigned) = PROCESSING ->
     fst (InterrogationsForms.abort w_unassigned) = Ok tt
     /\ state (self (snd (InterrogationsForms.abort w_unassigned))) = WAITING).
Proof.
  intros H. destruct (H eq_refl) as [R _].
  vm_compute in R. discriminate R.
Qed.

(** ** Staleness of a form *)

Lemma is_stale_reads_only (ttl : Z) (w : World InterrogationsForms) :
  snd (InterrogationsForms.is_stale ttl w) = w.
Proof.
  run. destruct (state (self w)); simpl; try reflexivity;
    destruct (expiry (self w)); reflexivity.
Qed.

(** C5, as the code has it.  [is_stale] returns [True] exactly when the
    state is WAITING or PROCESSING, the claim expiry is set and the
    current time is past it.  A form that is DONE, CANCELLED or FAULTED is
    never stale, and the call changes nothing. *)
Theorem is_stale_true_iff_open_and_expired :
  forall (ttl : Z) (w : World InterrogationsForms),
    (fst (InterrogationsForms.is_stale ttl w) = Ok true <->
       (state (self w) = WAITING \/ state (self w) = PROCESSING)
       /\ exists e, expiry (self w) = Some e /\ e < utcnow w)
    /\ (state (self w) = DONE \/ state (self w) = CANCELLED
          \/ state (self w) = FAULTED ->
        InterrogationsForms.is_stale ttl w = (Ok false, w))
    /\ snd (InterrogationsForms.is_stale ttl w) = w.
Proof.
  intros ttl w. split; [| split].
  - run. destruct (state (self w)); simpl;
      destruct (expiry (self w)) as [e |]; simpl; split;
      try (intros H; discriminate H);
      try (intros [[H | H] _]; discriminate H);
      try (intros [_ [e' [H _]]]; discriminate H).
    + intros H. injection H as H. apply Z.ltb_lt in H.
      split; [left; reflexivity |]. exists e. split; [reflexivity | exact H].
    + intros [_ [e' [H L]]]. injection H as <-.
      apply Z.ltb_lt in L. rewrite L. reflexivity.
    + intros H. injection H as H. apply Z.ltb_lt in H.
      split; [right; reflexivity |]. exists e. split; [reflexivity | exact H].
    + intros [_ [e' [H L]]]. injection H as <-.
      apply Z.ltb_lt in L. rewrite L. reflexivity.
  - intros [H | [H | H]]; run; rewrite H; reflexivity.
  - apply is_stale_reads_only.
Qed.

Lemma is_stale_true_iff_open_and_expired_witness :
  (state (self w_done) = DONE \/ state (self w_done) = CANCELLED
     \/ state (self w_done) = FAULTED)
  /\ InterrogationsForms.is_stale 0 w_done = (Ok false, w_done).
Proof.
  split; [left; reflexivity |].
  exact (proj1 (proj2 (is_stale_true_iff_open_and_expired 0 w_done))
           (or_introl eq_refl)).
Defined.

(** C5, as the spec words it, fails on a form that was claimed, aborted
    and looked at after its old claim expiry: the form is WAITING and
    [is_stale] returns [True]. *)
Lemma is_stale_true_on_reopened_form :
  ~ (fst (InterrogationsForms.is_stale 0 w_later) = Ok true <->
       state (self w_later) = PROCESSING
       /\ exists e, expiry (self w_later) = Some e /\ e < utcnow w_later).
Proof.
  intros [H _].
  assert (S : state (self w_later) = PROCESSING) by (apply H; reflexivity).
  vm_compute in S. discriminate S.
Qed.

(** C10. [is_stale] raises exactly on the forms whose claim expiry is
    null and whose state is none of FAULTED, CANCELLED and DONE, and
    returns a boolean on every other form.  A form that was never claimed
    is one of the former: it is WAITING with a null claim expiry, so the
    call reaches the comparison with [None] and raises [TypeError]. *)
Theorem is_stale_raises_iff_open_without_expiry :
  forall (ttl : Z) (w : World InterrogationsForms),
    ((exists msg, fst (InterrogationsForms.is_stale ttl w) = Raise (TypeError msg))
       <-> expiry (self w) = None
           /\ ~ In (state (self w)) [FAULTED; CANCELLED; DONE])
    /\ ((exists b, fst (InterrogationsForms.is_stale ttl w) = Ok b)
       <-> expiry (self w) <> None
           \/ In (state (self w)) [FAULTED; CANCELLED; DONE])
    /\ (forall id_ i_id_ name_ payload_ result_ worker_ created_ initiated_,
          let never_claimed :=
            {| self :=
                 {| id := id_; i_id := i_id_; name := name_; state := WAITING;
                    payload := payload_; result := result_; worker := worker_;
                    created := created_; initiated := initiated_;
                    expiry := None |};
               utcnow := utcnow w; trace := trace w |} in
          state (self never_claimed) = WAITING
          /\ expiry (self never_claimed) = None
          /\ exists msg,
               InterrogationsForms.is_stale ttl never_claimed =
                 (Raise (TypeError msg), never_claimed)).
Proof.
  intros ttl w. split; [| split].
  - run. destruct (state (self w)); simpl;
      destruct (expiry (self w)) as [e |]; simpl; split;
      try (intros [msg H]; discriminate H);
      try (intros [H _]; discriminate H);
      try (intros [_ H]; exfalso; apply H; simpl; tauto);
      try (intros _; split; [reflexivity |];
           intros [H | [H | [H | []]]]; discriminate H);
      try (intros _; eexists; reflexivity).
  - run. destruct (state (self w)); simpl;
      destruct (expiry (self w)) as [e |]; simpl; split;
      try (intros _; eexists; reflexivity);
      try (intros _; left; discriminate);
      try (intros _; right; simpl; tauto);
      try (intros [b H]; discriminate H);
      try (intros [H | [H | [H | [H | []]]]];
           [exfalso; apply H; reflexivity | discriminate H ..]).
  - intros. cbv zeta. split; [reflexivity |]. split; [reflexivity |].
    eexists. reflexivity.
Qed.

(** ** The status of a job *)

Ltac run_job :=
  unfold Interrogation.get_status, Interrogation.is_completed,
    Interrogation.needs_interrogation, Interrogation.getattr_self,
    Interrogation.set_forms, Interrogation.session_add,
    dict_getitem, datetime_utcnow, get_self, bind, ret, raise;
  simpl.

Lemma get_status_loop (l : list InterrogationsForms) :
  forall (ds : list pyval) (af ad p : bool),
    fold_left Interrogation.get_status_step l (ds, af, ad, p) =
      (ds ++ map reported l,
       af && forallb (fun f => State_eqb (state f) FAULTED) l,
       ad && forallb (fun f => State_eqb (state f) DONE) l,
       p || existsb (fun f => State_eqb (state f) PROCESSING) l).
Proof.
  induction l as [| f l IH]; intros ds af ad p; simpl.
  - rewrite app_nil_r, !andb_true_r, orb_false_r. reflexivity.
  - rewrite IH. rewrite <- app_assoc. simpl. unfold reported at 2.
    destruct (State_eqb (state f) FAULTED), (State_eqb (state f) DONE),
      (State_eqb (state f) PROCESSING), af, ad, p; reflexivity.
Qed.

Lemma get_status_value (w : World Interrogation.t) :
  Interrogation.get_status w =
    (Ok (VDict
           [ ("state",
              if forallb (fun f => State_eqb (state f) FAULTED)
                   (Interrogation.forms (self w))
              then VStr "FAULTED"
              else if forallb (fun f => State_eqb (state f) DONE)
                        (Interrogation.forms (self w))
              then VStr "DONE"
              else if existsb (fun f => State_eqb (state f) PROCESSING)
                        (Interrogation.forms (self w))
              then VStr "PROCESSING"
              else VEnum WAITING);
             ("forms", VList (map reported (Interrogation.forms (self w)))) ]),
     w).
Proof.
  unfold Interrogation.get_status, get_self, bind, ret.
  rewrite get_status_loop. simpl. reflexivity.
Qed.

(** C6. [get_status] changes nothing and returns a dict with two entries:
    under ["state"] the aggregate state, which is FAULTED if every form is
    FAULTED, else DONE if every form is DONE, else PROCESSING if some form
    is PROCESSING, else WAITING; under ["forms"] one dict per form, in
    order, with the form's name, the name of its state and its result.
    Two DONE forms give DONE, two FAULTED forms FAULTED, a WAITING and a
    PROCESSING form PROCESSING, two WAITING forms WAITING. *)
Theorem get_status_aggregates_forms :
  (forall w : World Interrogation.t,
     exists st,
       Interrogation.get_status w =
         (Ok (VDict [ ("state", st);
                      ("forms",
                       VList (map reported (Interrogation.forms (self w)))) ]),
          w)
       /\ state_denoted st =
            Some (aggregate_state (Interrogation.forms (self w))))
  /\ status_state (fst (Interrogation.get_status (job_in_states [DONE; DONE])))
       = Some (VStr "DONE")
  /\ status_state (fst (Interrogation.get_status
                          (job_in_states [FAULTED; FAULTED])))
       = Some (VStr "FAULTED")
  /\ status_state (fst (Interrogation.get_status
                          (job_in_states [WAITING; PROCESSING])))
       = Some (VStr "PROCESSING")
  /\ status_state (fst (Interrogation.get_status
                          (job_in_states [WAITING; WAITING])))
       = Some (VEnum WAITING).
Proof.
  split; [| repeat split; reflexivity].
  intros w. eexists. split; [apply get_status_value |].
  unfold aggregate_state.
  destruct (forallb _ _); [reflexivity |].
  destruct (forallb _ _); [reflexivity |].
  destruct (existsb _ _); reflexivity.
Qed.

(** ** Completion of a job *)

(** [needs_interrogation] reads [self.form]; the relationship is [forms]. *)
Lemma needs_interrogation_raises (w : World Interrogation.t) :
  Interrogation.needs_interrogation w =
    (Raise (AttributeError "Interrogation" "form"), w).
Proof. reflexivity. Qed.

(** C9. What [is_completed] does on any job: it reads [self.FAULTED],
    which no interrogation has, and stops with [AttributeError]; it returns
    neither [True] nor [False]. *)
Theorem is_completed_raises_AttributeError :
  forall w : World Interrogation.t,
    Interrogation.is_completed w =
      (Raise (AttributeError "Interrogation" "FAULTED"), w).
Proof. intros w. reflexivity. Qed.

(** ** The forms of a new job *)

Lemma added_app (t1 t2 : list Event) :
  added (t1 ++ t2) = added t1 ++ added t2.
Proof.
  induction t1 as [| e t1 IH]; [reflexivity |].
  destruct e; simpl; rewrite IH; reflexivity.
Qed.

Lemma added_Session_add (fs : list New_form) :
  added (map Session_add fs) = fs.
Proof.
  induction fs as [| f fs IH]; [reflexivity |].
  simpl. rewrite IH. reflexivity.
Qed.

Lemma set_forms_loop_adds_each (l : list (list (string * json))) :
  forall w : World Interrogation.t,
    (forall d, In d l -> dict_get d "name" <> None) ->
    fst (Interrogation.set_forms_loop [] l w) = Ok tt
    /\ List.length (added (trace (snd (Interrogation.set_forms_loop [] l w)))) =
       (List.length (added (trace w)) + List.length l)%nat.
Proof.
  induction l as [| d l IH]; intros w H; simpl.
  - split; [reflexivity | lia].
  - assert (Hd : dict_get d "name" <> None) by (apply H; left; reflexivity).
    unfold bind at 1. unfold dict_getitem.
    destruct (dict_get d "name") as [n |]; [| contradiction].
    unfold ret at 1. simpl.
    unfold bind, get_self, Interrogation.session_add, emit. simpl.
    match goal with
    | |- context [Interrogation.set_forms_loop [] l ?w'] =>
        destruct (IH w' (fun d' Hin => H d' (or_intror Hin))) as [R L]
    end.
    split; [exact R |].
    rewrite L. simpl. rewrite added_app, length_app. simpl. lia.
Qed.

(** C7. What [set_forms] does with the request [caption, caption, tags]
    on a job without forms: nothing is ever put in [seen_names], so the
    second [caption] is not skipped and three forms are constructed and
    handed to the session, all three for this job. *)
Theorem set_forms_keeps_duplicate_names :
  let w' := snd (Interrogation.set_forms (Some caption_caption_tags) w_job0) in
  fst (Interrogation.set_forms (Some caption_caption_tags) w_job0) = Ok tt
  /\ map new_name (added (trace w')) = ["caption"; "caption"; "tags"]
  /\ List.length (added (trace w')) = 3%nat
  /\ map new_i_id (added (trace w')) = [1; 1; 1].
Proof. repeat split; reflexivity. Qed.

(** * Further properties *)

(** ** Cancelling *)

(** X1. What [cancel] does on a PROCESSING form: it clears the result and
    sets the state to CANCELLED on the object, then stops with [NameError]
    on the unbound name [things_per_sec]; nothing is committed and no
    reward is recorded. *)
Theorem cancel_on_processing_raises_NameError :
  forall w : World InterrogationsForms,
    state (self w) = PROCESSING ->
    InterrogationsForms.cancel w =
      (Raise (NameError "things_per_sec"), cancelled_in_memory w)
    /\ result (self (snd (InterrogationsForms.cancel w))) = None
    /\ filter rewards (trace (snd (InterrogationsForms.cancel w))) =
       filter rewards (trace w).
Proof.
  intros w H.
  assert (E : InterrogationsForms.cancel w =
              (Raise (NameError "things_per_sec"), cancelled_in_memory w)).
  { destruct w as [f now tr]. simpl in H. run. rewrite H. simpl.
    unfold cancelled_in_memory. simpl.
    rewrite <- app_assoc. reflexivity. }
  split; [exact E |]. rewrite E. simpl. split; [reflexivity |].
  rewrite filter_app. simpl. apply app_nil_r.
Qed.

Lemma cancel_on_processing_raises_NameError_witness :
  state (self w_claimed) = PROCESSING
  /\ fst (InterrogationsForms.cancel w_claimed) =
       Raise (NameError "things_per_sec").
Proof.
  split; [reflexivity |].
  rewrite (proj1 (cancel_on_processing_raises_NameError w_claimed eq_refl)).
  reflexivity.
Defined.

(** ** Recording a reward *)

(** X2. [record] on a form that has its worker and its claim time tells
    the worker its kudos and the seconds taken, then stops with
    [AttributeError] on [self.wp]: the usage of the job is not recorded and
    nothing is logged.  The seconds taken are the elapsed time modulo one
    day, so they lie between 0 and 86399 and equal the elapsed time only
    when that is less than a day. *)
Theorem record_rewards_worker_then_raises :
  forall (kudos : pyval) (wk : WorkerExtended.t) (t0 : Z)
         (w : World InterrogationsForms),
    worker (self w) = Some wk ->
    initiated (self w) = Some t0 ->
    InterrogationsForms.record kudos w =
      (Raise (AttributeError "InterrogationsForms" "wp"),
       rewarded wk kudos t0 w)
    /\ 0 <= (utcnow w - t0) mod 86400 < 86400
    /\ (0 <= utcnow w - t0 < 86400 ->
        (utcnow w - t0) mod 86400 = utcnow w - t0)
    /\ (utcnow w + 86400 - t0) mod 86400 = (utcnow w - t0) mod 86400.
Proof.
  intros kudos wk t0 w Hw Ht. split; [| split; [| split]].
  - destruct w as [f now tr]. destruct f. simpl in Hw, Ht. subst.
    run. unfold rewarded. simpl. reflexivity.
  - apply Z.mod_pos_bound. lia.
  - intros B. apply Z.mod_small. exact B.
  - replace (utcnow w + 86400 - t0) with (utcnow w - t0 + 1 * 86400) by lia.
    apply Z.mod_add. lia.
Qed.

Lemma record_rewards_worker_then_raises_witness :
  worker (self (at_time 130 w_claimed)) = Some alice
  /\ initiated (self (at_time 130 w_claimed)) = Some 100
  /\ InterrogationsForms.record (VInt 1) (at_time 130 w_claimed) =
       (Raise (AttributeError "InterrogationsForms" "wp"),
        rewarded alice (VInt 1) 100 (at_time 130 w_claimed)).
Proof.
  split; [reflexivity |]. split; [reflexivity |].
  exact (proj1 (record_rewards_worker_then_raises (VInt 1) alice 100
                  (at_time 130 w_claimed) eq_refl eq_refl)).
Defined.

(** ** Aborting a form that has no worker *)

(** X3. [abort] on a PROCESSING form without a worker sets the state to
    FAULTED on the object and stops with [AttributeError] when it reaches
    the worker: no fault is logged, the state is not set back to WAITING
    and nothing is committed.  The form left behind cannot be claimed. *)
Theorem abort_without_worker_leaves_FAULTED :
  forall w : World InterrogationsForms,
    state (self w) = PROCESSING ->
    worker (self w) = None ->
    InterrogationsForms.abort w =
      (Raise (AttributeError "NoneType" "log_aborted_job"),
       faulted_in_memory w)
    /\ state (self (snd (InterrogationsForms.abort w))) = FAULTED
    /\ forall ttl wk,
         fst (InterrogationsForms.pop ttl wk
                (snd (InterrogationsForms.abort w))) = Ok VNone.
Proof.
  intros w H Hw.
  assert (E : InterrogationsForms.abort w =
              (Raise (AttributeError "NoneType" "log_aborted_job"),
               faulted_in_memory w)).
  { destruct w as [f now tr]. destruct f. simpl in H, Hw. subst.
    run. reflexivity. }
  split; [exact E |]. rewrite E. cbn [snd]. split; [reflexivity |].
  intros ttl wk. rewrite pop_not_waiting; [reflexivity |].
  simpl. discriminate.
Qed.

Lemma abort_without_worker_leaves_FAULTED_witness :
  state (self w_unassigned) = PROCESSING
  /\ worker (self w_unassigned) = None
  /\ state (self (snd (InterrogationsForms.abort w_unassigned))) = FAULTED.
Proof.
  split; [reflexivity |]. split; [reflexivity |].
  exact (proj1 (proj2 (abort_without_worker_leaves_FAULTED w_unassigned
                         eq_refl eq_refl))).
Defined.

(** ** Any sequence of calls on a form *)

(** Splits a world into its form's columns and decides the ones the
    methods branch on. *)
Ltac by_cases w :=
  let f := fresh "f" in
  let now := fresh "now" in
  let tr := fresh "tr" in
  destruct w as [f now tr];
  destruct f as [fid fiid fname fstate fpayload fresult fworker fcreated
                 finitiated fexpiry];
  destruct fstate, fworker, fexpiry, fid.

Lemma run_calls_cons (t : Z) (c : Call) (cs : list (Z * Call))
    (w : World InterrogationsForms) :
  run_calls ((t, c) :: cs) w = run_calls cs (run_call c (at_time t w)).
Proof. reflexivity. Qed.

Lemma run_call_no_reward (c : Call) (w : World InterrogationsForms) :
  filter rewards (trace (run_call c w)) = filter rewards (trace w).
Proof.
  by_cases w; destruct c; unfold run_call; run;
    rewrite ?filter_app; simpl; rewrite ?app_nil_r; reflexivity.
Qed.

Lemma run_call_columns (c : Call) (w : World InterrogationsForms) :
  let f := self w in
  let f' := self (run_call c w) in
  id f' = id f /\ i_id f' = i_id f /\ name f' = name f
  /\ payload f' = payload f /\ created f' = created f.
Proof.
  by_cases w; destruct c; unfold run_call; run; repeat split; reflexivity.
Qed.

Lemma run_call_closed_state (c : Call) (w : World InterrogationsForms) :
  In (state (self w)) [DONE; CANCELLED; FAULTED] ->
  run_call c w = w.
Proof.
  intros H. by_cases w; simpl in H;
    try (exfalso; destruct H as [H | [H | [H | []]]]; discriminate H);
    destruct c; reflexivity.
Qed.

Lemma kudos_awarded_filter (tr : list Event) :
  kudos_awarded (filter rewards tr) = kudos_awarded tr.
Proof.
  induction tr as [| e tr IH]; [reflexivity |].
  destruct e; simpl; try exact IH.
  destruct kudos; simpl; try exact IH. rewrite IH. reflexivity.
Qed.

(** X4. A form that is DONE, CANCELLED or FAULTED stays as it is: no
    sequence of [pop], [deliver], [cancel], [abort] and [is_stale] calls,
    made at any times, changes any of its columns or does anything else. *)
Theorem closed_forms_never_change :
  forall (cs : list (Z * Call)) (w : World InterrogationsForms),
    In (state (self w)) [DONE; CANCELLED; FAULTED] ->
    self (run_calls cs w) = self w /\ trace (run_calls cs w) = trace w.
Proof.
  induction cs as [| [t c] cs IH]; intros w H.
  - split; reflexivity.
  - rewrite run_calls_cons.
    rewrite (run_call_closed_state c (at_time t w)) by exact H.
    apply (IH (at_time t w)). exact H.
Qed.

Lemma closed_forms_never_change_witness :
  In (state (self w_done)) [DONE; CANCELLED; FAULTED]
  /\ self (run_calls [(140, Pop 60 alice); (150, Deliver (Some "a dog"));
                      (160, Cancel); (170, Abort); (900, Is_stale 0)] w_done)
     = self w_done.
Proof.
  split; [left; reflexivity |].
  apply (closed_forms_never_change
           [(140, Pop 60 alice); (150, Deliver (Some "a dog"));
            (160, Cancel); (170, Abort); (900, Is_stale 0)] w_done).
  left. reflexivity.
Defined.

(** X5. No sequence of [pop], [deliver], [cancel], [abort] and [is_stale]
    calls on a form, whatever its state and whenever they are made, tells a
    worker a reward, records usage on the job or logs a delivery: the
    kudos awarded along the trace stay what they were. *)
Theorem calls_never_reward :
  forall (cs : list (Z * Call)) (w : World InterrogationsForms),
    filter rewards (trace (run_calls cs w)) = filter rewards (trace w)
    /\ kudos_awarded (trace (run_calls cs w)) = kudos_awarded (trace w).
Proof.
  assert (F : forall cs w,
             filter rewards (trace (run_calls cs w)) =
             filter rewards (trace w)).
  { induction cs as [| [t c] cs IH]; intros w; [reflexivity |].
    rewrite run_calls_cons, IH, run_call_no_reward. reflexivity. }
  intros cs w. split; [apply F |].
  rewrite <- (kudos_awarded_filter (trace (run_calls cs w))), F.
  apply kudos_awarded_filter.
Qed.

(** X6. No sequence of [pop], [deliver], [cancel], [abort] and [is_stale]
    calls changes the identity of a form: its id, its job, its name, its
    payload and its creation time stay what they were, also when a call
    raises. *)
Theorem calls_keep_identity_columns :
  forall (cs : list (Z * Call)) (w : World InterrogationsForms),
    let f := self w in
    let f' := self (run_calls cs w) in
    id f' = id f /\ i_id f' = i_id f /\ name f' = name f
    /\ payload f' = payload f /\ created f' = created f.
Proof.
  induction cs as [| [t c] cs IH]; intros w; cbv zeta.
  - repeat split; reflexivity.
  - rewrite run_calls_cons.
    destruct (IH (run_call c (at_time t w))) as (A & B & C & D & E).
    destruct (run_call_columns c (at_time t w)) as (A' & B' & C' & D' & E').
    cbv zeta in *. simpl in A', B', C', D', E'.
    rewrite A, B, C, D, E, A', B', C', D', E'. repeat split; reflexivity.
Qed.

(** ** Claims and the clock *)

(** X7. A WAITING form that has its row and is claimed at time [t] with
    a TTL of [ttl] is stale at time [t'] exactly when [t'] is later than
    [t + ttl]: it is not stale yet at [t + ttl] itself, and the argument of
    [is_stale] has no part in it. *)
Theorem claimed_form_is_stale_after_ttl :
  forall (ttl ttl' t' : Z) (wk : WorkerExtended.t)
         (w : World InterrogationsForms),
    id (self w) <> None ->
    state (self w) = WAITING ->
    fst (InterrogationsForms.is_stale ttl'
           (at_time t' (snd (InterrogationsForms.pop ttl wk w)))) =
      Ok (utcnow w + ttl <? t').
Proof.
  intros ttl ttl' t' wk w Hi H. rewrite (pop_waiting ttl wk w Hi H).
  reflexivity.
Qed.

Lemma claimed_form_is_stale_after_ttl_witness :
  id (self w_fresh) <> None
  /\ state (self w_fresh) = WAITING
  /\ fst (InterrogationsForms.is_stale 0 (at_time 160 w_claimed)) = Ok false
  /\ fst (InterrogationsForms.is_stale 0 (at_time 161 w_claimed)) = Ok true.
Proof.
  assert (I : id (self w_fresh) <> None) by (simpl; discriminate).
  split; [exact I |]. split; [reflexivity |]. split.
  - exact (claimed_form_is_stale_after_ttl 60 0 160 alice w_fresh I eq_refl).
  - exact (claimed_form_is_stale_after_ttl 60 0 161 alice w_fresh I eq_refl).
Defined.

(** X8. Claim, abort, claim again.  When a WAITING form that has its row
    is claimed by one worker, aborted, and claimed by a second worker at time [t2], the
    second claim succeeds and the form ends exactly as if the second worker
    had claimed the untouched form at [t2]: worker, claim time and claim
    expiry are those of the second claim.  Along the way the first worker
    was told of one fault, and nobody else of any. *)
Theorem reclaim_round_trip :
  forall (ttl ttl' t1 t2 : Z) (wk wk' : WorkerExtended.t)
         (w : World InterrogationsForms),
    id (self w) <> None ->
    state (self w) = WAITING ->
    let w1 := snd (InterrogationsForms.pop ttl wk w) in
    let w2 := snd (InterrogationsForms.abort (at_time t1 w1)) in
    let w3 := snd (InterrogationsForms.pop ttl' wk' (at_time t2 w2)) in
    fst (InterrogationsForms.abort (at_time t1 w1)) = Ok tt
    /\ fst (InterrogationsForms.pop ttl' wk' (at_time t2 w2)) =
         Ok (VDict [ ("name", VStr (name (self w)));
                     ("payload", of_column (payload (self w))) ])
    /\ self w3 = self (claimed ttl' wk' (at_time t2 w))
    /\ filter is_fault (trace w3) =
         filter is_fault (trace w)
         ++ [Worker_log_aborted_job (WorkerExtended.id wk)].
Proof.
  intros ttl ttl' t1 t2 wk wk' w Hi H. cbv zeta.
  rewrite (pop_waiting ttl wk w Hi H). cbn [snd].
  rewrite (abort_processing wk (at_time t1 (claimed ttl wk w)))
    by reflexivity.
  cbn [fst snd].
  rewrite (pop_waiting ttl' wk'
             (at_time t2 (reopened wk (at_time t1 (claimed ttl wk w)))))
    by (first [exact Hi | reflexivity]).
  cbn [fst snd]. split; [reflexivity |]. split; [reflexivity |].
  split; [reflexivity |].
  simpl. rewrite !filter_app. simpl. rewrite !app_nil_r. reflexivity.
Qed.

Lemma reclaim_round_trip_witness :
  id (self w_fresh) <> None
  /\ state (self w_fresh) = WAITING
  /\ self (snd (InterrogationsForms.pop 30 bob (at_time 300 w_aborted)))
     = self (claimed 30 bob (at_time 300 w_fresh))
  /\ worker (self (claimed 30 bob (at_time 300 w_fresh))) = Some bob.
Proof.
  assert (I : id (self w_fresh) <> None) by (simpl; discriminate).
  split; [exact I |]. split; [reflexivity |]. split; [| reflexivity].
  exact (proj1 (proj2 (proj2
           (reclaim_round_trip 60 30 200 300 alice bob w_fresh I eq_refl)))).
Defined.

(** X9. [is_stale] does not use its argument, and a form that is stale
    stays stale as time goes on while nothing else touches it. *)
Theorem is_stale_ignores_ttl_and_is_monotone :
  (forall (ttl ttl' : Z) (w : World InterrogationsForms),
     InterrogationsForms.is_stale ttl w = InterrogationsForms.is_stale ttl' w)
  /\ (forall (ttl ttl' t t' : Z) (w : World InterrogationsForms),
        t <= t' ->
        fst (InterrogationsForms.is_stale ttl (at_time t w)) = Ok true ->
        fst (InterrogationsForms.is_stale ttl' (at_time t' w)) = Ok true).
Proof.
  split; [reflexivity |].
  intros ttl ttl' t t' w L.
  by_cases w; unfold at_time; run; intros H; try discriminate H;
    injection H as H; apply Z.ltb_lt in H;
    assert (L' : (z <? t') = true) by (apply Z.ltb_lt; lia);
    rewrite L'; reflexivity.
Qed.

Lemma is_stale_ignores_ttl_and_is_monotone_witness :
  161 <= 500
  /\ fst (InterrogationsForms.is_stale 0 (at_time 161 w_claimed)) = Ok true
  /\ fst (InterrogationsForms.is_stale 7 (at_time 500 w_claimed)) = Ok true.
Proof.
  split; [lia |]. split; [reflexivity |].
  apply (proj2 is_stale_ignores_ttl_and_is_monotone 0 7 161 500 w_claimed);
    [lia | reflexivity].
Defined.

(** ** The forms a job is given *)

Lemma with_added_nil (w : World Interrogation.t) : with_added [] w = w.
Proof.
  destruct w as [s now tr]. unfold with_added. simpl.
  rewrite app_nil_r. reflexivity.
Qed.

Lemma with_added_cons (f : New_form) (fs : list New_form)
    (w : World Interrogation.t) :
  with_added fs (with_added [f] w) = with_added (f :: fs) w.
Proof.
  unfold with_added. simpl. rewrite <- app_assoc. reflexivity.
Qed.

Lemma set_forms_loop_step (d : list (string * json)) (n : string)
    (l : list (list (string * json))) (w : World Interrogation.t) :
  dict_get d "name" = Some n ->
  Interrogation.set_forms_loop [] (d :: l) w =
    Interrogation.set_forms_loop [] l
      (with_added [form_for (Interrogation.id (self w)) d] w).
Proof.
  intros H. simpl. unfold bind at 1. unfold dict_getitem, form_for.
  rewrite H. reflexivity.
Qed.

Lemma set_forms_loop_named (l1 : list (list (string * json))) :
  forall (rest : list (list (string * json))) (w : World Interrogation.t),
    forallb has_name l1 = true ->
    Interrogation.set_forms_loop [] (l1 ++ rest) w =
      Interrogation.set_forms_loop [] rest
        (with_added (map (form_for (Interrogation.id (self w))) l1) w).
Proof.
  induction l1 as [| d l1 IH]; intros rest w H.
  - simpl. rewrite with_added_nil. reflexivity.
  - simpl in H. apply andb_true_iff in H. destruct H as [Hd Hl].
    unfold has_name in Hd.
    destruct (dict_get d "name") as [n |] eqn:E; [| discriminate Hd].
    rewrite <- app_comm_cons.
    rewrite (set_forms_loop_step d n (l1 ++ rest) w E).
    rewrite (IH rest _ Hl). simpl map.
    rewrite with_added_cons. reflexivity.
Qed.

(** X10. Given requests that all have a name, [set_forms] constructs one
    form per request, duplicates included, and hands them to the session
    in the order of the requests, after whatever was handed to it before.
    Each new form carries the name and the payload of its request (no
    payload when the request has none) and the id of the job; the job
    itself, its list of forms included, is left as it was and nothing is
    committed. *)
Theorem set_forms_creates_one_form_per_request :
  forall (l : list (list (string * json))) (w : World Interrogation.t),
    forallb has_name l = true ->
    let new := map (form_for (Interrogation.id (self w))) l in
    let w' := snd (Interrogation.set_forms (Some l) w) in
    Interrogation.set_forms (Some l) w = (Ok tt, with_added new w)
    /\ added (trace w') = added (trace w) ++ new
    /\ List.length new = List.length l
    /\ map (fun f => Some (new_name f)) new = map (fun d => dict_get d "name") l
    /\ map new_payload new = map (fun d => dict_get d "payload") l
    /\ Forall (fun f => new_i_id f = Interrogation.id (self w)) new
    /\ self w' = self w
    /\ trace w' = trace w ++ map Session_add new.
Proof.
  intros l w H. cbv zeta.
  assert (E : Interrogation.set_forms (Some l) w =
              (Ok tt,
               with_added (map (form_for (Interrogation.id (self w))) l) w)).
  { unfold Interrogation.set_forms.
    rewrite <- (app_nil_r l) at 1.
    rewrite (set_forms_loop_named l [] w H). reflexivity. }
  split; [exact E |]. rewrite E. cbn [snd].
  split; [| split; [apply length_map |]].
  { unfold with_added. cbn [trace].
    rewrite added_app, added_Session_add. reflexivity. }
  split; [| split; [| split; [| split]]].
  - rewrite map_map. apply map_ext_in. intros d Hd.
    assert (Hn : has_name d = true).
    { rewrite forallb_forall in H. apply H, Hd. }
    unfold has_name in Hn. unfold form_for. simpl.
    destruct (dict_get d "name"); [reflexivity | discriminate Hn].
  - rewrite map_map. reflexivity.
  - apply Forall_forall. intros f Hf. apply in_map_iff in Hf.
    destruct Hf as [d [<- _]]. reflexivity.
  - reflexivity.
  - reflexivity.
Qed.

Lemma set_forms_creates_one_form_per_request_witness :
  forallb has_name caption_caption_tags = true
  /\ map new_name
       (added (trace (snd (Interrogation.set_forms (Some caption_caption_tags)
                             w_job0)))) =
     ["caption"; "caption"; "tags"].
Proof.
  split; [reflexivity |].
  rewrite (proj1 (proj2 (set_forms_creates_one_form_per_request
                           caption_caption_tags w_job0 eq_refl))).
  reflexivity.
Defined.

(** X11. When a request has no ["name"], [set_forms] stops there with
    [KeyError]: the forms of the requests before it have been handed to
    the session and stay there, the requests after it are not looked at. *)
Theorem set_forms_stops_at_nameless_request :
  forall (l1 l2 : list (list (string * json))) (d : list (string * json))
         (w : World Interrogation.t),
    forallb has_name l1 = true ->
    has_name d = false ->
    Interrogation.set_forms (Some (l1 ++ d :: l2)) w =
      (Raise (KeyError "name"),
       with_added (map (form_for (Interrogation.id (self w))) l1) w).
Proof.
  intros l1 l2 d w H Hd. unfold Interrogation.set_forms.
  rewrite (set_forms_loop_named l1 (d :: l2) w H).
  simpl. unfold bind at 1. unfold dict_getitem.
  unfold has_name in Hd.
  destruct (dict_get d "name"); [discriminate Hd | reflexivity].
Qed.

Lemma set_forms_stops_at_nameless_request_witness :
  forallb has_name [[("name", "caption")]] = true
  /\ has_name [("payload", "{}")] = false
  /\ fst (Interrogation.set_forms (Some caption_anonymous_tags) w_job0) =
       Raise (KeyError "name")
  /\ map new_name
       (added (trace (snd (Interrogation.set_forms
                             (Some caption_anonymous_tags) w_job0)))) =
     ["caption"].
Proof.
  split; [reflexivity |]. split; [reflexivity |].
  pose proof (set_forms_stops_at_nameless_request
                [[("name", "caption")]] [[("name", "tags")]]
                [("payload", "{}")] w_job0 eq_refl eq_refl) as E.
  change ([[("name", "caption")]] ++ [("payload", "{}")] :: [[("name", "tags")]])
    with caption_anonymous_tags in E.
  rewrite E. split; reflexivity.
Defined.

(** ** More on the status of a job *)

(** X12. A job without forms is reported FAULTED, with an empty list of
    forms: both "all" flags are still set when the loop has nothing to
    visit, and the one for FAULTED is looked at first. *)
Theorem get_status_of_formless_job_is_FAULTED :
  forall w : World Interrogation.t,
    Interrogation.forms (self w) = [] ->
    Interrogation.get_status w =
      (Ok (VDict [ ("state", VStr "FAULTED"); ("forms", VList []) ]), w).
Proof.
  intros w H. rewrite get_status_value, H. reflexivity.
Qed.

Lemma get_status_of_formless_job_is_FAULTED_witness :
  Interrogation.forms (self w_job0) = []
  /\ status_state (fst (Interrogation.get_status w_job0)) =
       Some (VStr "FAULTED").
Proof.
  split; [reflexivity |].
  rewrite (get_status_of_formless_job_is_FAULTED w_job0 eq_refl).
  reflexivity.
Defined.

Lemma forallb_false_of {A} (p : A -> bool) (l : list A) (a : A) :
  In a l -> p a = false -> forallb p l = false.
Proof.
  intros Hin Hp. destruct (forallb p l) eqn:E; [| reflexivity].
  rewrite forallb_forall in E. rewrite (E a Hin) in Hp. discriminate Hp.
Qed.

(** X13. A job that has a CANCELLED form is never reported DONE or
    FAULTED, whatever the other forms are: it is reported PROCESSING while
    some form is PROCESSING and WAITING otherwise. *)
Theorem get_status_with_cancelled_form :
  forall (w : World Interrogation.t) (f : InterrogationsForms),
    In f (Interrogation.forms (self w)) ->
    state f = CANCELLED ->
    status_state (fst (Interrogation.get_status w)) =
      Some (if existsb (fun g => State_eqb (state g) PROCESSING)
                 (Interrogation.forms (self w))
            then VStr "PROCESSING" else VEnum WAITING).
Proof.
  intros w f Hin Hs. rewrite get_status_value. cbn [fst status_state].
  rewrite (forallb_false_of _ _ f Hin) by (rewrite Hs; reflexivity).
  rewrite (forallb_false_of _ _ f Hin) by (rewrite Hs; reflexivity).
  reflexivity.
Qed.

Lemma get_status_with_cancelled_form_witness :
  In (apply_write (W_state CANCELLED) caption_form)
     (Interrogation.forms (self (job_in_states [DONE; CANCELLED])))
  /\ state (apply_write (W_state CANCELLED) caption_form) = CANCELLED
  /\ status_state (fst (Interrogation.get_status
                          (job_in_states [DONE; CANCELLED]))) =
       Some (VEnum WAITING).
Proof.
  split; [right; left; reflexivity |]. split; [reflexivity |].
  exact (get_status_with_cancelled_form (job_in_states [DONE; CANCELLED])
           (apply_write (W_state CANCELLED) caption_form)
           (or_intror (or_introl eq_refl)) eq_refl).
Defined.

(** X14. The status of a job and the tests of its forms agree: the job is
    reported DONE exactly when it has at least one form and [is_completed]
    holds of every form, and FAULTED exactly when [is_FAULTED] holds of
    every form it has. *)
Theorem get_status_agrees_with_form_tests :
  forall w : World Interrogation.t,
    (status_state (fst (Interrogation.get_status w)) = Some (VStr "DONE")
       <-> Interrogation.forms (self w) <> []
           /\ Forall (fun f => fst (InterrogationsForms.is_completed
                                      (form_world f)) = Ok true)
                (Interrogation.forms (self w)))
    /\ (status_state (fst (Interrogation.get_status w)) = Some (VStr "FAULTED")
       <-> Forall (fun f => fst (InterrogationsForms.is_FAULTED
                                   (form_world f)) = Ok true)
             (Interrogation.forms (self w))).
Proof.
  intros w. rewrite get_status_value. cbn [fst status_state].
  assert (D : Forall (fun f => fst (InterrogationsForms.is_completed
                                      (form_world f)) = Ok true)
                (Interrogation.forms (self w))
              <-> forallb (fun f => State_eqb (state f) DONE)
                    (Interrogation.forms (self w)) = true).
  { rewrite Forall_forall, forallb_forall. split; intros H f Hf.
    - specialize (H f Hf). simpl in H. injection H as H. exact H.
    - simpl. rewrite (H f Hf). reflexivity. }
  assert (F : Forall (fun f => fst (InterrogationsForms.is_FAULTED
                                      (form_world f)) = Ok true)
                (Interrogation.forms (self w))
              <-> forallb (fun f => State_eqb (state f) FAULTED)
                    (Interrogation.forms (self w)) = true).
  { rewrite Forall_forall, forallb_forall. split; intros H f Hf.
    - specialize (H f Hf). simpl in H. injection H as H. exact H.
    - simpl. rewrite (H f Hf). reflexivity. }
  rewrite D, F. clear D F.
  destruct (Interrogation.forms (self w)) as [| f l] eqn:E.
  - simpl. split; split; try reflexivity.
    + intros H. discriminate H.
    + intros [H _]. contradiction.
  - destruct (forallb (fun f => State_eqb (state f) FAULTED) (f :: l)) eqn:A;
      destruct (forallb (fun f => State_eqb (state f) DONE) (f :: l)) eqn:B.
    + exfalso. simpl in A, B.
      apply andb_true_iff in A. apply andb_true_iff in B.
      destruct A as [A _]. destruct B as [B _].
      apply State_eqb_eq in A. apply State_eqb_eq in B. congruence.
    + split; split; try reflexivity.
      * intros H. discriminate H.
      * intros [_ H]. discriminate H.
    + split; split; try reflexivity.
      * intros _. split; [discriminate | reflexivity].
      * intros H. discriminate H.
      * intros H. discriminate H.
    + split; split.
      * destruct (existsb _ _); intros H; discriminate H.
      * intros [_ H]. discriminate H.
      * destruct (existsb _ _); intros H; discriminate H.
      * intros H. discriminate H.
Qed.

(** ** Usage and expiry of a job *)

(** X15. On a job that has a user, [record_usage] tells the user ledger
    zero raw things and the kudos, sets the expiry of the job to the date
    [get_expiry_date] gives (the current time plus the configured window)
    and commits once; the forms and the other columns are left alone.
    After it the job is stale at a time [t'] exactly when [t'] is later
    than that date.  On a job without a user it raises [AttributeError] at
    [self.user.record_usage] and changes nothing: the expiry is not
    extended. *)
Theorem record_usage_extends_expiry :
  forall (window : Z) (kudos : pyval) (t' : Z) (w : World Interrogation.t),
    (Interrogation.user_id (self w) <> None ->
       let w' := snd (Interrogation.record_usage window kudos w) in
       fst (Interrogation.record_usage window kudos w) = Ok tt
       /\ trace w' =
            trace w ++ [ User_record_usage 0 kudos;
                         Set_interrogation_expiry (utcnow w + window); Commit ]
       /\ self w' = Interrogation.with_expiry (utcnow w + window) (self w)
       /\ Interrogation.forms (self w') = Interrogation.forms (self w)
       /\ Interrogation.is_stale (at_time t' w') =
            (Ok (utcnow w + window <? t'), at_time t' w'))
    /\ (Interrogation.user_id (self w) = None ->
          Interrogation.record_usage window kudos w =
            (Raise (AttributeError "NoneType" "record_usage"), w)).
Proof.
  intros window kudos t' w.
  unfold Interrogation.record_usage, Interrogation.refresh,
    Interrogation.get_expiry_date, Interrogation.is_stale,
    commit, emit, datetime_utcnow, get_self, bind, ret, raise.
  simpl. split.
  - intros H. destruct (Interrogation.user_id (self w)) as [u |];
      [| contradiction].
    simpl. repeat rewrite <- app_assoc. simpl.
    repeat split.
    destruct (utcnow w + window <? t'); reflexivity.
  - intros H. rewrite H. reflexivity.
Qed.

Lemma record_usage_extends_expiry_witness :
  Interrogation.user_id (self w_job0) <> None
  /\ Interrogation.expiry
       (self (snd (Interrogation.record_usage 3600 (VInt 1) w_job0))) = 3700
  /\ Interrogation.user_id (self w_job_anonymous) = None
  /\ fst (Interrogation.record_usage 1200 (VInt 1) w_job_anonymous) =
       Raise (AttributeError "NoneType" "record_usage").
Proof.
  assert (U : Interrogation.user_id (self w_job0) <> None)
    by (simpl; discriminate).
  split; [exact U |]. split.
  - rewrite (proj1 (proj2 (proj2
      (proj1 (record_usage_extends_expiry 3600 (VInt 1) 0 w_job0) U)))).
    reflexivity.
  - split; [reflexivity |].
    rewrite (proj2 (record_usage_extends_expiry 1200 (VInt 1) 0
                      w_job_anonymous) eq_refl).
    reflexivity.
Defined.

(** ** The moves of a form *)

(** X16. One call moves the state of a form along the arrows of the
    state machine or not at all: [pop] from WAITING to PROCESSING,
    [deliver] from PROCESSING to DONE, [cancel] from PROCESSING to
    CANCELLED, [abort] from PROCESSING to WAITING or, when it raises, to
    FAULTED; [is_stale] never moves it. *)
Theorem calls_follow_the_state_machine :
  forall (c : Call) (w : World InterrogationsForms),
    let s := state (self w) in
    let s' := state (self (run_call c w)) in
    s' = s
    \/ (s = WAITING /\ s' = PROCESSING /\ exists ttl wk, c = Pop ttl wk)
    \/ (s = PROCESSING /\ s' = DONE /\ exists r, c = Deliver r)
    \/ (s = PROCESSING /\ s' = CANCELLED /\ c = Cancel)
    \/ (s = PROCESSING /\ s' = WAITING /\ c = Abort
        /\ fst (InterrogationsForms.abort w) = Ok tt)
    \/ (s = PROCESSING /\ s' = FAULTED /\ c = Abort
        /\ worker (self w) = None).
Proof.
  intros c w. cbv zeta.
  by_cases w; destruct c; unfold run_call; run;
    first
      [ left; reflexivity
      | right; left; repeat split; eexists; eexists; reflexivity
      | right; right; left; repeat split; eexists; reflexivity
      | right; right; right; left; repeat split; reflexivity
      | right; right; right; right; left; repeat split; reflexivity
      | right; right; right; right; right; repeat split; reflexivity ].
Qed.

(** X17. The methods keep the claim on record: when a form that is past
    WAITING has its worker, claim time and claim expiry, then so has it
    after any sequence of [pop], [deliver], [cancel], [abort] and
    [is_stale] calls.  On such a form [abort] does not raise, and
    [is_stale] does not raise unless the form is WAITING. *)
Theorem calls_keep_claim_recorded :
  forall (cs : list (Z * Call)) (w : World InterrogationsForms),
    claim_recorded (self w) ->
    let w' := run_calls cs w in
    claim_recorded (self w')
    /\ fst (InterrogationsForms.abort w') = Ok tt
    /\ (state (self w') <> WAITING ->
        exists b, fst (InterrogationsForms.is_stale 0 w') = Ok b).
Proof.
  assert (Step : forall c w, claim_recorded (self w) ->
                             claim_recorded (self (run_call c w))).
  { intros c w. unfold claim_recorded.
    by_cases w; destruct c; unfold run_call; run; intros H N;
      try (exfalso; apply N; reflexivity);
      try (repeat split; discriminate);
      try (apply H; discriminate);
      exfalso;
      destruct H as (A & B & C); try discriminate;
      first [apply A | apply B | apply C]; reflexivity. }
  assert (Inv : forall cs w, claim_recorded (self w) ->
                             claim_recorded (self (run_calls cs w))).
  { induction cs as [| [t c] cs IH]; intros w H; [exact H |].
    rewrite run_calls_cons. apply IH, Step. exact H. }
  intros cs w H. cbv zeta. specialize (Inv cs w H).
  split; [exact Inv |]. revert Inv. unfold claim_recorded.
  generalize (run_calls cs w). intros w'.
  by_cases w'; run; intros I; split;
    try reflexivity;
    try (intros N; exfalso; apply N; reflexivity);
    try (intros _; eexists; reflexivity);
    exfalso; destruct I as (A & B & C); try discriminate; congruence.
Qed.

Lemma calls_keep_claim_recorded_witness :
  claim_recorded (self w_fresh)
  /\ claim_recorded
       (self (run_calls [(100, Pop 60 alice); (130, Deliver (Some "a cat"));
                         (900, Abort)] w_fresh)).
Proof.
  assert (H : claim_recorded (self w_fresh)).
  { intros N. exfalso. apply N. reflexivity. }
  split; [exact H |].
  exact (proj1 (calls_keep_claim_recorded
                  [(100, Pop 60 alice); (130, Deliver (Some "a cat"));
                   (900, Abort)] w_fresh H)).
Defined.
